(** * lc_flask_routes: class-based routes for Flask

    A shallow embedding of [src/lc_flask_routes/route.py] and the
    properties of its route registrar ([BaseRouteMixin.register_route]),
    its method dispatcher ([BaseRouteMixin.handle_request]) and the
    parameter merger ([BaseRouteWithParserMixin.handle_request]).

    Python dictionaries keyed by strings are [gmap string _]; the route
    table, whose iteration order decides the order of registrations and
    of log records, is the list of its items.  Exceptions, the logger,
    the Flask application and the calls made to collaborators are
    threaded through a state-and-error monad. *)

From Stdlib Require Import ZArith Ascii String List.
From stdpp Require Import base tactics option list gmap strings.

Local Open Scope string_scope.
Local Open Scope Z_scope.

(** ** Python values *)

(** The values that flow through this layer untouched: route variable
    bindings, parsed arguments, route options, handler results and
    exception arguments. *)
#[local] Unset Elimination Schemes.
Inductive PyVal : Type :=
  | PyNone
  | PyBool (b : bool)
  | PyInt (n : Z)
  | PyStr (s : string)
  | PyTuple (items : list PyVal)
  | PyList (items : list PyVal)
  | PyDict (items : list (string * PyVal))
  | PyObject (ident : string).
#[local] Set Elimination Schemes.

(** [dict.update]: the entries of [other] overwrite those of [d]. *)
Definition update (d other : gmap string PyVal) : gmap string PyVal :=
  other ∪ d.

(** [dict(pairs)]: a later pair overwrites an earlier one with its key. *)
Definition dict (pairs : list (string * PyVal)) : gmap string PyVal :=
  list_to_map (reverse pairs).

(** [str.lower] on the ASCII range, where HTTP method tokens live. *)
Definition lower_ascii (c : ascii) : ascii :=
  let n := nat_of_ascii c in
  if (Nat.leb 65 n && Nat.leb n 90)%bool then ascii_of_nat (n + 32) else c.

Fixpoint lower (s : string) : string :=
  match s with
  | EmptyString => EmptyString
  | String c s' => String (lower_ascii c) (lower s')
  end.

(** [str.startswith] *)
Definition startswith (s pre : string) : bool := String.prefix pre s.

(** ** Exceptions *)

(** The exception classes this layer raises, catches or lets through.
    All of them derive from [Exception], the class [register_route]
    catches; the interpreter's exit signals ([KeyboardInterrupt],
    [SystemExit]), which derive from [BaseException] only, are outside
    the model.  [HTTPStatus code] is the werkzeug class that
    [flask.abort code] raises, [UserExc] any class defined by a
    collaborator, with single inheritance. *)
Inductive ExcClass : Type :=
  | Exception
  | TypeError
  | RuntimeError
  | ValueError
  | AssertionError
  | LookupError
  | KeyError
  | HTTPException
  | HTTPStatus (code : Z)
  | UserExc (name : string) (base : ExcClass).

#[global] Instance ExcClass_eq_dec : EqDecision ExcClass.
Proof. solve_decision. Defined.

(** The class followed by its base classes, nearest first. *)
Fixpoint exc_mro (c : ExcClass) : list ExcClass :=
  c :: match c with
       | Exception => []
       | TypeError | RuntimeError | ValueError | AssertionError
       | LookupError | HTTPException => [Exception]
       | KeyError => [LookupError; Exception]
       | HTTPStatus _ => [HTTPException; Exception]
       | UserExc _ b => exc_mro b
       end.

Definition issubclass (c target : ExcClass) : bool :=
  bool_decide (target ∈ exc_mro c).

(** An exception instance: its class and its [args] tuple. *)
Record Exn : Type := MkExn { exc_class : ExcClass; exc_args : list PyVal }.

(** [isinstance(exc, target)], the test of an [except target] clause. *)
Definition isinstance (exc : Exn) (target : ExcClass) : bool :=
  issubclass (exc_class exc) target.

(** ** The framework's objects *)

(** [flask.request]: the method name and the rest of the request. *)
Record Request : Type := MkRequest { method : string; payload : PyVal }.

(** The ambient per-request context: [flask.current_app],
    [flask.request], [flask.session]. *)
Record RequestContext : Type := MkContext {
  current_app : PyVal;
  request : Request;
  session : PyVal
}.

(** A bound classmethod handed to the framework as a view function. *)
Inductive ViewFunc : Type :=
  | ClassMethod (cls_name : string) (meth : string).

(** One rule of the application's routing table. *)
Record Rule : Type := MkRule {
  rule : string;
  rule_view : ViewFunc;
  rule_options : gmap string PyVal
}.

(** [flask.Flask]: its routing table. *)
Record Flask : Type := MkFlask { url_map : list Rule }.

(** [logging] levels and records. *)
Inductive Level : Type := DEBUG | INFO | WARNING | ERROR | CRITICAL.

Record LogRecord : Type := MkLogRecord { levelname : Level; msg : string }.

(** The calls this layer makes to its collaborators, in order. *)
Inductive Call : Type :=
  | CallAddUrlRule (route : string) (view_func : ViewFunc)
                   (options : gmap string PyVal)
  | CallParseArgs
  | CallHandler (name : string) (app : PyVal) (req : Request)
                (sess : PyVal) (route_kwargs : gmap string PyVal).

(** ** State and errors *)

Record World : Type := MkWorld {
  flask_app : Flask;
  log : list LogRecord;
  calls : list Call
}.

Inductive Outcome (A : Type) : Type :=
  | Return (a : A)
  | Raise (exc : Exn).
Arguments Return {A} a.
Arguments Raise {A} exc.

Definition M (A : Type) : Type := World → Outcome A * World.

Definition ret {A} (a : A) : M A := fun w => (Return a, w).

Definition raise {A} (exc : Exn) : M A := fun w => (Raise exc, w).

Definition bind {A B} (c : M A) (k : A → M B) : M B :=
  fun w => match c w with
           | (Return a, w') => k a w'
           | (Raise exc, w') => (Raise exc, w')
           end.

(** [try: c  except ...]: [h] stands for the [except] clauses and raises
    again what none of them catches. *)
Definition try_except {A} (c : M A) (h : Exn → M A) : M A :=
  fun w => match c w with
           | (Return a, w') => (Return a, w')
           | (Raise exc, w') => h exc w'
           end.

#[global] Instance M_ret : MRet M := @ret.
#[global] Instance M_bind : MBind M := fun A B k c => bind c k.

(** [for x in xs: body x] *)
Fixpoint for_each {A} (xs : list A) (body : A → M unit) : M unit :=
  match xs with
  | [] => ret tt
  | x :: xs' => body x;; for_each xs' body
  end.

Definition record_call (c : Call) : M unit :=
  fun w => (Return tt,
            {| flask_app := flask_app w; log := log w;
               calls := calls w ++ [c] |}).

(** [flask.abort(code)] for a status code werkzeug knows. *)
Definition flask_abort {A} (code : Z) : M A :=
  raise (MkExn (HTTPStatus code) []).

(** [logger.warning(message)] *)
Definition logger_warning (message : string) : M unit :=
  fun w => (Return tt,
            {| flask_app := flask_app w;
               log := log w ++ [MkLogRecord WARNING message];
               calls := calls w |}).

(** ** Route classes *)

(** [RouteMap = Dict[str, Dict[str, Any]]], as its items in iteration
    (insertion) order. *)
Definition RouteMap : Type := list (string * gmap string PyVal).

(** A method handler: [(app, request, session, route_kwargs)] to a
    response or an exception. *)
Definition HandlerFn : Type :=
  PyVal → Request → PyVal → gmap string PyVal → M PyVal.

(** A class attribute, seen from the dispatcher: either it accepts the
    four positional arguments, or calling it with them is a [TypeError]
    with the given message. *)
Inductive Attr : Type :=
  | Handler (h : HandlerFn)
  | Other (call_error : string).

(** [attr(app, request, session, route_kwargs)] *)
Definition call_attr (attr : Attr) : HandlerFn :=
  fun app req sess route_kwargs =>
    match attr with
    | Handler h => h app req sess route_kwargs
    | Other call_error => raise (MkExn TypeError [PyStr call_error])
    end.

(** [argparse.Namespace]: its [__dict__]. *)
Record Namespace : Type := MkNamespace { ns_dict : gmap string PyVal }.

(** [Namespace._get_kwargs()]: the items of the namespace. *)
Definition _get_kwargs (args : Namespace) : list (string * PyVal) :=
  map_to_list (ns_dict args).

(** [lc_flask_reqparser.RequestParser]: [parse_args()] reads the current
    request and returns the parsed namespace and the unparsed rest. *)
Record RequestParser : Type := MkRequestParser {
  parse_args : RequestContext → M (Namespace * PyVal)
}.

(** The mixin a route class derives from. *)
Inductive Base : Type := PlainRoute | ParserRoute.

(** A route class: a subclass of [BaseRouteMixin] ([PlainRoute]) or of
    [BaseRouteWithParserMixin] ([ParserRoute]).  [cls_dict] holds what
    the class and its ancestors below the mixin define. *)
Record RouteClass : Type := MkRouteClass {
  cls_name : string;
  cls_base : Base;
  cls_dict : gmap string Attr;
  ROUTE_MAP : option RouteMap;
  gen_request_parser : option RequestParser
}.

(** The double quote of the [KeyError] message. *)
Definition dquote : string := String (ascii_of_nat 34) EmptyString.

(** What [BaseRouteWithParserMixin] adds to the class namespace. *)
Definition BaseRouteWithParserMixin_dict : gmap string Attr :=
  list_to_map
    [("__slots__", Other "'tuple' object is not callable");
     ("gen_request_parser",
      Other "gen_request_parser() takes 1 positional argument but 5 were given");
     ("handle_request",
      Other "handle_request() takes 1 positional argument but 5 were given")].

Module BaseRouteMixin.

(** Handle GET requests to route(s). *)
Definition get : HandlerFn :=
  fun app request session route_kwargs => flask_abort 405.

(** Handle POST requests to route(s). *)
Definition post : HandlerFn :=
  fun app request session route_kwargs => flask_abort 405.

(** Handle PUT requests to route(s). *)
Definition put : HandlerFn :=
  fun app request session route_kwargs => flask_abort 405.

(** Handle DELETE requests to route(s). *)
Definition delete : HandlerFn :=
  fun app request session route_kwargs => flask_abort 405.

(** The namespace of [BaseRouteMixin] itself. *)
Definition class_dict : gmap string Attr :=
  list_to_map
    [("__slots__", Other "'tuple' object is not callable");
     ("ROUTE_MAP", Other "'NoneType' object is not callable");
     ("register_route",
      Other "register_route() takes 2 positional arguments but 5 were given");
     ("handle_request",
      Other "handle_request() takes 1 positional argument but 5 were given");
     ("get", Handler get);
     ("post", Handler post);
     ("put", Handler put);
     ("delete", Handler delete)].

(** Attribute lookup along the method resolution order of [cls];
    [None] is where [hasattr] is false. *)
Definition getattr (cls : RouteClass) (name : string) : option Attr :=
  (cls_dict cls ∪
   match cls_base cls with
   | PlainRoute => class_dict
   | ParserRoute => BaseRouteWithParserMixin_dict ∪ class_dict
   end) !! name.

Definition hasattr (cls : RouteClass) (name : string) : bool :=
  bool_decide (is_Some (getattr cls name)).

Section Registrar.

(** [flask.Flask.add_url_rule(rule, view_func=..., **options)]: the
    outcome and the application it leaves behind. *)
Variable add_url_rule :
  string → ViewFunc → gmap string PyVal → Flask → Outcome unit * Flask.

(** [str(exc)], as [str.format] renders an exception. *)
Variable py_str : Exn → string.

(** The framework's call, acting on the application of the world. *)
Definition on_flask_app (f : Flask → Outcome unit * Flask) : M unit :=
  fun w => let '(r, app') := f (flask_app w) in
           (r, {| flask_app := app'; log := log w; calls := calls w |}).

Definition app_add_url_rule (route : string) (view_func : ViewFunc)
    (options : gmap string PyVal) : M unit :=
  record_call (CallAddUrlRule route view_func options);;
  on_flask_app (add_url_rule route view_func options).

(** [cls.handle_request], the bound method given to the framework. *)
Definition bound_handle_request (cls : RouteClass) : ViewFunc :=
  ClassMethod (cls_name cls) "handle_request".

Definition view_func_message : string :=
  "route options cannot contain " ++ dquote ++ "view_func" ++ dquote ++ " key".

(** The body of the [try] block. *)
Definition try_register (cls : RouteClass) (route : string)
    (route_options : gmap string PyVal) : M unit :=
  if bool_decide ("view_func" ∈ dom route_options)
  then raise (MkExn KeyError [PyStr view_func_message])
  else app_add_url_rule route (bound_handle_request cls) route_options.

(** ["Failed to register handler for route {} ({})".format(route, exc)] *)
Definition warning_message (route : string) (exc : Exn) : string :=
  "Failed to register handler for route " ++ route ++ " (" ++ py_str exc ++ ")".

(** One iteration of the loop: the [try] block with its handler. *)
Definition register_entry (cls : RouteClass)
    (entry : string * gmap string PyVal) : M unit :=
  let '(route, route_options) := entry in
  try_except (try_register cls route route_options)
             (fun exc => logger_warning (warning_message route exc)).

Definition register_route (cls : RouteClass) : M unit :=
  match ROUTE_MAP cls with
  | None | Some [] => ret tt
  | Some route_map => for_each route_map (register_entry cls)
  end.

End Registrar.

Definition handle_request (cls : RouteClass) (ctx : RequestContext)
    (route_kwargs : gmap string PyVal) : M PyVal :=
  let app := current_app ctx in
  let request := request ctx in
  let request_method := lower (method request) in
  let session := session ctx in
  match getattr cls request_method with
  | None => flask_abort 405
  | Some handler =>
      record_call (CallHandler request_method app request session route_kwargs);;
      call_attr handler app request session route_kwargs
  end.

End BaseRouteMixin.

Module BaseRouteWithParserMixin.

(** The default hook: no parser. *)
Definition default_gen_request_parser : option RequestParser := None.

Definition parsed_methods : gset string := {[ "GET"; "POST"; "PUT" ]}.

Definition validation_prefix : string := "Failed to parse provided arguments".

(** The [except] clauses around [parser.parse_args()]. *)
Definition on_parse_error (exc : Exn) : M Namespace :=
  if isinstance exc TypeError then flask_abort 415
  else if isinstance exc RuntimeError then
    match exc_args exc with
    | PyStr message :: _ =>
        if startswith message validation_prefix then flask_abort 400
        else raise exc
    | _ => raise exc
    end
  else raise exc.

Definition multiple_values_message : string :=
  "handle_request() got multiple values for argument 'cls'".

(** [super().handle_request] called with the items of [route_kwargs] as
    keywords: they are bound against the parameters of the classmethod,
    [cls] and the keyword dictionary, and [cls] is taken by the class,
    so a key named [cls] is a [TypeError] and the body is not entered. *)
Definition super_handle_request (cls : RouteClass) (ctx : RequestContext)
    (route_kwargs : gmap string PyVal) : M PyVal :=
  if bool_decide ("cls" ∈ dom route_kwargs)
  then raise (MkExn TypeError [PyStr multiple_values_message])
  else BaseRouteMixin.handle_request cls ctx route_kwargs.

(** Where [route_kwargs] has not been updated it holds the keywords this
    classmethod was itself entered with, none of which is named [cls]:
    binding them again is the plain call.  After the update the parsed
    keys are among them and the binding is the one of
    [super_handle_request]. *)
Definition handle_request (cls : RouteClass) (ctx : RequestContext)
    (route_kwargs : gmap string PyVal) : M PyVal :=
  let request := request ctx in
  let request_method := method request in
  let parser := gen_request_parser cls in
  match parser with
  | Some parser =>
      if bool_decide (request_method ∈ parsed_methods) then
        args ← try_except
                 (record_call CallParseArgs;;
                  '(args, _) ← parse_args parser ctx; ret args)
                 on_parse_error;
        super_handle_request cls ctx
          (update route_kwargs (dict (_get_kwargs args)))
      else BaseRouteMixin.handle_request cls ctx route_kwargs
  | None => BaseRouteMixin.handle_request cls ctx route_kwargs
  end.

End BaseRouteWithParserMixin.

(** [cls.handle_request], resolved along the class's bases. *)
Definition handle_request (cls : RouteClass) :
    RequestContext → gmap string PyVal → M PyVal :=
  match cls_base cls with
  | PlainRoute => BaseRouteMixin.handle_request cls
  | ParserRoute => BaseRouteWithParserMixin.handle_request cls
  end.

(** The status the framework answers with when the view function ends
    in the given way: an aborted request carries its code, an exception
    of another class is an internal server error (500), and a response
    is a body (200) or a pair of a body and a status. *)
Definition response_status (r : Outcome PyVal) : Z :=
  match r with
  | Raise (MkExn (HTTPStatus code) _) => code
  | Raise _ => 500
  | Return (PyTuple [_; PyInt status]) => status
  | Return _ => 200
  end.

(** ** Vocabulary of the statements *)

(** [class name(cls): body] for a [body] of handlers and other plain
    attributes, inheriting what [body] does not define.  The parser hook
    and [handle_request] are those of [cls]: a body that defines
    [gen_request_parser] or [handle_request] is not of this form, and the
    statements that depend on them exclude it. *)
Definition subclass (cls : RouteClass) (name : string)
    (body : gmap string Attr) : RouteClass :=
  {| cls_name := name;
     cls_base := cls_base cls;
     cls_dict := body ∪ cls_dict cls;
     ROUTE_MAP := ROUTE_MAP cls;
     gen_request_parser := gen_request_parser cls |}.

(** [part] occurs in [message]. *)
Definition names (message part : string) : Prop :=
  ∃ pre post, message = pre ++ part ++ post.

(** The world once the call [c] has been made. *)
Definition called (c : Call) (w : World) : World :=
  {| flask_app := flask_app w; log := log w; calls := calls w ++ [c] |}.

(** The world once [r] has been logged. *)
Definition logged (r : LogRecord) (w : World) : World :=
  {| flask_app := flask_app w; log := log w ++ [r]; calls := calls w |}.

(** The application after the framework has accepted every entry of
    [entries] in turn, if it does accept them all. *)
Fixpoint add_rules
    (add_url_rule : string → ViewFunc → gmap string PyVal → Flask → Outcome unit * Flask)
    (view_func : ViewFunc) (entries : RouteMap) (app : Flask) : option Flask :=
  match entries with
  | [] => Some app
  | (route, route_options) :: rest =>
      match add_url_rule route view_func route_options app with
      | (Return _, app') => add_rules add_url_rule view_func rest app'
      | (Raise _, _) => None
      end
  end.

(** The class [cls] with another route table. *)
Definition with_route_map (cls : RouteClass) (route_map : option RouteMap)
    : RouteClass :=
  {| cls_name := cls_name cls;
     cls_base := cls_base cls;
     cls_dict := cls_dict cls;
     ROUTE_MAP := route_map;
     gen_request_parser := gen_request_parser cls |}.

(** The world [w2] is the world [w1] with the record [r] inserted
    somewhere in its log. *)
Definition log_inserted (r : LogRecord) (w1 w2 : World) : Prop :=
  flask_app w1 = flask_app w2
  ∧ calls w1 = calls w2
  ∧ ∃ pre post, log w1 = (pre ++ post)%list ∧ log w2 = (pre ++ r :: post)%list.

(** An entry of a route table breaks the reserved-key rule. *)
Definition reserved_key_violation (entry : string * gmap string PyVal) : Prop :=
  "view_func" ∈ dom entry.2.

#[global] Instance reserved_key_violation_dec entry :
  Decision (reserved_key_violation entry).
Proof. unfold reserved_key_violation. apply _. Defined.

(** ** The route classes of the repository's self-test *)

Module Fixtures.

(** A framework for the examples: a rule is appended to the routing
    table unless it lacks the leading slash werkzeug insists on. *)
Definition sample_add_url_rule (route : string) (view_func : ViewFunc)
    (options : gmap string PyVal) (app : Flask) : Outcome unit * Flask :=
  if startswith route "/"
  then (Return tt, MkFlask (url_map app ++ [MkRule route view_func options]))
  else (Raise (MkExn ValueError [PyStr "urls must start with a leading slash"]),
        app).

(** A rendering of exceptions for the examples: the first argument
    when it is a string. *)
Definition sample_str (exc : Exn) : string :=
  match exc_args exc with
  | PyStr s :: _ => s
  | _ => ""
  end.

Definition gen_flask_app : World :=
  {| flask_app := MkFlask []; log := []; calls := [] |}.

Definition methods (names : list string) : PyVal := PyList (PyStr <$> names).

(** [return body, status] *)
Definition responding (body : PyVal) (status : Z) : HandlerFn :=
  fun app request session route_kwargs => ret (PyTuple [body; PyInt status]).

(** [return route_kwargs, 200] *)
Definition echo_route_kwargs : HandlerFn :=
  fun app request session route_kwargs =>
    ret (PyTuple [PyDict (map_to_list route_kwargs); PyInt 200]).

Definition IndexRoute : RouteClass :=
  {| cls_name := "IndexRoute";
     cls_base := PlainRoute;
     cls_dict := {[ "get" := Handler (responding (PyStr "<h1>Splash Page</h1>") 200) ]};
     ROUTE_MAP := Some
       [("/", list_to_map [("endpoint", PyStr "index_root");
                           ("methods", methods ["GET"])]);
        ("/index", list_to_map [("endpoint", PyStr "index_index");
                                ("methods", methods ["GET"; "PATCH"])])];
     gen_request_parser := None |}.

Definition invalid_options : gmap string PyVal :=
  list_to_map [("endpoint", PyStr "invalid");
               ("methods", methods ["GET"; "POST"]);
               ("view_func", PyObject "<lambda>")].

Definition InvalidRoute : RouteClass :=
  {| cls_name := "InvalidRoute";
     cls_base := PlainRoute;
     cls_dict := ∅;
     ROUTE_MAP := Some [("/invalid", invalid_options)];
     gen_request_parser := None |}.

(** A class with no route table at all. *)
Definition BaseRoute : RouteClass :=
  {| cls_name := "BaseRoute";
     cls_base := PlainRoute;
     cls_dict := ∅;
     ROUTE_MAP := None;
     gen_request_parser := None |}.

(** A table with one reserved-key violation between two valid entries. *)
Definition MixedRoute : RouteClass :=
  {| cls_name := "MixedRoute";
     cls_base := PlainRoute;
     cls_dict := ∅;
     ROUTE_MAP := Some
       [("/", {[ "endpoint" := PyStr "root" ]});
        ("/invalid", invalid_options);
        ("/index", {[ "endpoint" := PyStr "index" ]})];
     gen_request_parser := None |}.

(** A parser whose [parse_args] returns the given namespace. *)
Definition parser_returning (parsed : gmap string PyVal) : RequestParser :=
  {| parse_args := fun ctx => ret (MkNamespace parsed, PyList []) |}.

(** A parser whose [parse_args] raises the given exception. *)
Definition parser_raising (exc : Exn) : RequestParser :=
  {| parse_args := fun ctx => raise exc |}.

Definition route_with_parser (name : string) (parser : option RequestParser)
    : RouteClass :=
  {| cls_name := name;
     cls_base := ParserRoute;
     cls_dict := {[ "get" := Handler echo_route_kwargs ]};
     ROUTE_MAP := Some
       [("/team/<team_name>", list_to_map [("endpoint", PyStr "search_location");
                                           ("methods", methods ["GET"])])];
     gen_request_parser := parser |}.

(** [GET /team/FC%20Barcelona?team_name=FC%20Milan] *)
Definition WithParserWithVRRoute : RouteClass :=
  route_with_parser "WithParserWithVRRoute"
    (Some (parser_returning
             (list_to_map [("team_name", PyStr "FC Milan"); ("alias", PyNone)]))).


Definition NoParserWithVRRoute : RouteClass :=
  route_with_parser "NoParserWithVRRoute" None.

Definition barcelona : gmap string PyVal :=
  {[ "team_name" := PyStr "FC Barcelona" ]}.

Definition milan : Namespace :=
  MkNamespace (list_to_map [("team_name", PyStr "FC Milan"); ("alias", PyNone)]).

(** The three ways [parse_args] fails. *)
Definition invalid_mimetype : Exn :=
  MkExn TypeError [PyStr "request body must be JSON"].

Definition invalid_argument : Exn :=
  MkExn RuntimeError
    [PyStr "Failed to parse provided arguments: argument age: invalid int value"].

Definition outside_context : Exn :=
  MkExn RuntimeError [PyStr "Working outside of request context."].

(** A parser that declares an argument named [cls]. *)
Definition cls_namespace : Namespace :=
  MkNamespace {[ "cls" := PyStr "IndexRoute" ]}.

Definition ClsArgumentRoute : RouteClass :=
  route_with_parser "ClsArgumentRoute"
    (Some (parser_returning (ns_dict cls_namespace))).

(** A table with one reserved-key violation and a path the framework
    rejects. *)
Definition RejectedRoute : RouteClass :=
  {| cls_name := "RejectedRoute";
     cls_base := PlainRoute;
     cls_dict := ∅;
     ROUTE_MAP := Some [("/invalid", invalid_options); ("index", ∅)];
     gen_request_parser := None |}.

Definition failing_route (exc : Exn) : RouteClass :=
  route_with_parser "FailingRoute" (Some (parser_raising exc)).

Definition context (method : string) : RequestContext :=
  {| current_app := PyObject "<Flask 'route'>";
     request := MkRequest method PyNone;
     session := PyObject "<SecureCookieSession {}>" |}.

End Fixtures.

(** * Properties *)

(** ** The repository's self-test, replayed on the model *)

(** [test_register_routes_url_map] *)
Example test_register_routes_url_map :
  rule <$> url_map (flask_app
    (BaseRouteMixin.register_route Fixtures.sample_add_url_rule Fixtures.sample_str
       Fixtures.IndexRoute Fixtures.gen_flask_app).2)
  = ["/"; "/index"].
Proof. vm_compute. reflexivity. Qed.

(** [test_register_routes_view_func_in_options] *)
Example test_register_routes_view_func_in_options :
  levelname <$> log
    (BaseRouteMixin.register_route Fixtures.sample_add_url_rule Fixtures.sample_str
       Fixtures.InvalidRoute Fixtures.gen_flask_app).2
  = [WARNING].
Proof. vm_compute. reflexivity. Qed.

(** [test_handle_request_method_not_implemented] *)
Example test_handle_request_method_not_implemented :
  response_status
    (handle_request Fixtures.IndexRoute (Fixtures.context "PATCH") ∅
       Fixtures.gen_flask_app).1
  = 405.
Proof. vm_compute. reflexivity. Qed.

(** [test_handle_request_proper_method] *)
Example test_handle_request_proper_method :
  (handle_request Fixtures.IndexRoute (Fixtures.context "GET") ∅
     Fixtures.gen_flask_app).1
  = Return (PyTuple [PyStr "<h1>Splash Page</h1>"; PyInt 200]).
Proof. vm_compute. reflexivity. Qed.

(** [test_handle_request_no_parser_route_kwargs] *)
Example test_handle_request_no_parser_route_kwargs :
  (handle_request Fixtures.NoParserWithVRRoute (Fixtures.context "GET")
     Fixtures.barcelona Fixtures.gen_flask_app).1
  = Return (PyTuple [PyDict [("team_name", PyStr "FC Barcelona")]; PyInt 200]).
Proof. vm_compute. reflexivity. Qed.

(** [test_handle_request_with_parser_merge_arguments_vrules] *)
Example test_handle_request_with_parser_merge_arguments_vrules :
  (handle_request Fixtures.WithParserWithVRRoute (Fixtures.context "GET")
     Fixtures.barcelona Fixtures.gen_flask_app).1
  = Return (PyTuple [PyDict [("alias", PyNone); ("team_name", PyStr "FC Milan")];
                     PyInt 200]).
Proof. vm_compute. reflexivity. Qed.

(** ** The monad *)

Lemma bind_Return {A B} (c : M A) (k : A → M B) w a w' :
  c w = (Return a, w') → (c ≫= k) w = k a w'.
Proof. intros H. unfold mbind, M_bind, bind. by rewrite H. Qed.

Lemma bind_Raise {A B} (c : M A) (k : A → M B) w exc w' :
  c w = (Raise exc, w') → (c ≫= k) w = (Raise exc, w').
Proof. intros H. unfold mbind, M_bind, bind. by rewrite H. Qed.

Lemma record_call_called c w : record_call c w = (Return tt, called c w).
Proof. reflexivity. Qed.

Lemma logger_warning_logged message w :
  logger_warning message w = (Return tt, logged (MkLogRecord WARNING message) w).
Proof. reflexivity. Qed.

Lemma for_each_app {A} (xs ys : list A) (body : A → M unit) w w' :
  for_each xs body w = (Return tt, w') →
  for_each (xs ++ ys) body w = for_each ys body w'.
Proof.
  revert w. induction xs as [|x xs IH]; intros w H; simpl in *.
  - unfold ret in H. by inversion H.
  - unfold mbind, M_bind, bind in *.
    destruct (body x w) as [[[]|exc] w1]; [by apply IH | discriminate].
Qed.

Lemma for_each_cons {A} (x : A) (xs : list A) (body : A → M unit) w :
  for_each (x :: xs) body w
  = match body x w with
    | (Return _, w') => for_each xs body w'
    | (Raise exc, w') => (Raise exc, w')
    end.
Proof. reflexivity. Qed.

(** A loop whose body never raises runs to its end. *)
Lemma for_each_returns {A} (xs : list A) (body : A → M unit) :
  (∀ x w, (body x w).1 = Return tt) →
  ∀ w, (for_each xs body w).1 = Return tt.
Proof.
  intros Hbody. induction xs as [|x xs IH]; intros w; simpl; [done|].
  unfold mbind, M_bind, bind.
  specialize (Hbody x w). destruct (body x w) as [[[]|exc] w1]; [apply IH | done].
Qed.

(** ** Strings and exception classes *)

Lemma names_app_l (a b : string) : names (a ++ b) a.
Proof. exists "", b. reflexivity. Qed.

Lemma string_app_assoc (a b c : string) : (a ++ b) ++ c = a ++ (b ++ c).
Proof.
  induction a as [|ch a IH]; [done|].
  change (String ch ((a ++ b) ++ c) = String ch (a ++ (b ++ c))). by f_equal.
Qed.

Lemma parsed_methods_spec (m : string) :
  m ∈ BaseRouteWithParserMixin.parsed_methods ↔ m = "GET" ∨ m = "POST" ∨ m = "PUT".
Proof.
  unfold BaseRouteWithParserMixin.parsed_methods.
  rewrite !elem_of_union, !elem_of_singleton. tauto.
Qed.

(** With single inheritance a class below [RuntimeError] is not below
    [TypeError]. *)
Lemma RuntimeError_not_TypeError (c : ExcClass) :
  issubclass c RuntimeError = true → issubclass c TypeError = false.
Proof.
  unfold issubclass. rewrite bool_decide_eq_true, bool_decide_eq_false.
  induction c; simpl; intros H Hn;
    repeat (apply elem_of_cons in H as [H|H]; [try discriminate|]);
    repeat (apply elem_of_cons in Hn as [Hn|Hn]; [try discriminate|]);
    try (by apply elem_of_nil in H); try (by apply elem_of_nil in Hn);
    try (by apply IHc).
Qed.

(** ** Attribute lookup *)

Lemma getattr_own cls name attr :
  cls_dict cls !! name = Some attr → BaseRouteMixin.getattr cls name = Some attr.
Proof. intros H. unfold BaseRouteMixin.getattr. by apply lookup_union_Some_l. Qed.

Lemma getattr_inherited_default cls name :
  name ∈ ["get"; "post"; "put"; "delete"] →
  cls_dict cls !! name = None →
  ∃ h, BaseRouteMixin.getattr cls name = Some (Handler h) ∧
       ∀ app req sess route_kwargs w,
         h app req sess route_kwargs w = (Raise (MkExn (HTTPStatus 405) []), w).
Proof.
  intros Hname Hown. unfold BaseRouteMixin.getattr.
  rewrite lookup_union_r by done.
  repeat (apply elem_of_cons in Hname as [-> | Hname]);
    [..|by apply elem_of_nil in Hname];
    destruct (cls_base cls);
    exists BaseRouteMixin.get; (split; [vm_compute; reflexivity | done]).
Qed.

(** Every route class has an attribute for GET, POST and PUT: its own
    or the default one. *)
Lemma hasattr_parsed_method cls m :
  m = "GET" ∨ m = "POST" ∨ m = "PUT" →
  is_Some (BaseRouteMixin.getattr cls (lower m)).
Proof.
  intros Hm. unfold BaseRouteMixin.getattr.
  apply lookup_union_is_Some. right.
  destruct Hm as [-> | [-> | ->]]; destruct (cls_base cls);
    vm_compute; eauto.
Qed.

Lemma hasattr_false cls name :
  BaseRouteMixin.hasattr cls name = false ↔ BaseRouteMixin.getattr cls name = None.
Proof.
  unfold BaseRouteMixin.hasattr. rewrite bool_decide_eq_false.
  rewrite <- eq_None_not_Some. done.
Qed.

(** ** The merged arguments *)

Lemma dict_get_kwargs args : dict (_get_kwargs args) = ns_dict args.
Proof.
  unfold dict, _get_kwargs. symmetry. apply list_to_map_flip.
  symmetry. apply reverse_Permutation.
Qed.

Lemma update_lookup_parsed (d other : gmap string PyVal) k v :
  other !! k = Some v → update d other !! k = Some v.
Proof. intros H. unfold update. by apply lookup_union_Some_l. Qed.

Lemma update_lookup_kept (d other : gmap string PyVal) k :
  other !! k = None → update d other !! k = d !! k.
Proof. intros H. unfold update. by apply lookup_union_r. Qed.

(** ** The method dispatcher *)

Lemma dispatch_no_handler cls ctx route_kwargs w :
  BaseRouteMixin.getattr cls (lower (method (request ctx))) = None →
  BaseRouteMixin.handle_request cls ctx route_kwargs w
  = (Raise (MkExn (HTTPStatus 405) []), w).
Proof. intros H. unfold BaseRouteMixin.handle_request. by rewrite H. Qed.

Lemma dispatch_attr cls ctx route_kwargs attr w :
  BaseRouteMixin.getattr cls (lower (method (request ctx))) = Some attr →
  BaseRouteMixin.handle_request cls ctx route_kwargs w
  = call_attr attr (current_app ctx) (request ctx) (session ctx) route_kwargs
      (called (CallHandler (lower (method (request ctx))) (current_app ctx)
                 (request ctx) (session ctx) route_kwargs) w).
Proof. intros H. unfold BaseRouteMixin.handle_request. by rewrite H. Qed.

Lemma parser_not_engaged cls ctx route_kwargs :
  gen_request_parser cls = None ∨
  ¬ (method (request ctx) = "GET" ∨ method (request ctx) = "POST"
     ∨ method (request ctx) = "PUT") →
  BaseRouteWithParserMixin.handle_request cls ctx route_kwargs
  = BaseRouteMixin.handle_request cls ctx route_kwargs.
Proof.
  intros H. unfold BaseRouteWithParserMixin.handle_request.
  destruct (gen_request_parser cls) as [parser|]; [|done].
  destruct H as [H|H]; [done|].
  rewrite bool_decide_eq_false_2; [done|]. by rewrite parsed_methods_spec.
Qed.

(** The parser-equipped dispatcher once the parser has been run. *)
Lemma parser_engaged cls parser ctx route_kwargs w :
  gen_request_parser cls = Some parser →
  method (request ctx) = "GET" ∨ method (request ctx) = "POST"
  ∨ method (request ctx) = "PUT" →
  BaseRouteWithParserMixin.handle_request cls ctx route_kwargs w
  = match parse_args parser ctx (called CallParseArgs w) with
    | (Return (args, _), w') =>
        BaseRouteWithParserMixin.super_handle_request cls ctx
          (update route_kwargs (dict (_get_kwargs args))) w'
    | (Raise exc, w') =>
        match BaseRouteWithParserMixin.on_parse_error exc w' with
        | (Return args, w'') =>
            BaseRouteWithParserMixin.super_handle_request cls ctx
              (update route_kwargs (dict (_get_kwargs args))) w''
        | (Raise exc', w'') => (Raise exc', w'')
        end
    end.
Proof.
  intros Hp Hm. unfold BaseRouteWithParserMixin.handle_request.
  rewrite Hp, bool_decide_eq_true_2 by (by rewrite parsed_methods_spec).
  unfold mbind, M_bind, bind, try_except. rewrite record_call_called.
  destruct (parse_args parser ctx (called CallParseArgs w)) as [[[args rest]|exc] w'];
    reflexivity.
Qed.

(** Binding the merged mapping: the plain dispatcher when no key is
    named [cls], a [TypeError] otherwise. *)
Lemma super_handle_request_binds cls ctx route_kwargs :
  "cls" ∉ dom route_kwargs →
  BaseRouteWithParserMixin.super_handle_request cls ctx route_kwargs
  = BaseRouteMixin.handle_request cls ctx route_kwargs.
Proof.
  intros H. unfold BaseRouteWithParserMixin.super_handle_request.
  by rewrite bool_decide_eq_false_2.
Qed.

Lemma super_handle_request_collides cls ctx route_kwargs w :
  "cls" ∈ dom route_kwargs →
  BaseRouteWithParserMixin.super_handle_request cls ctx route_kwargs w
  = (Raise (MkExn TypeError
              [PyStr BaseRouteWithParserMixin.multiple_values_message]), w).
Proof.
  intros H. unfold BaseRouteWithParserMixin.super_handle_request.
  by rewrite bool_decide_eq_true_2.
Qed.

Lemma parser_success cls parser ctx route_kwargs w args rest w' :
  gen_request_parser cls = Some parser →
  method (request ctx) = "GET" ∨ method (request ctx) = "POST"
  ∨ method (request ctx) = "PUT" →
  parse_args parser ctx (called CallParseArgs w) = (Return (args, rest), w') →
  BaseRouteWithParserMixin.handle_request cls ctx route_kwargs w
  = BaseRouteWithParserMixin.super_handle_request cls ctx
      (update route_kwargs (ns_dict args)) w'.
Proof.
  intros Hp Hm Hparse.
  by rewrite (parser_engaged _ _ _ _ _ Hp Hm), Hparse, dict_get_kwargs.
Qed.

Lemma update_no_cls (route_kwargs parsed : gmap string PyVal) :
  "cls" ∉ dom route_kwargs → "cls" ∉ dom parsed →
  "cls" ∉ dom (update route_kwargs parsed).
Proof.
  unfold update. rewrite dom_union_L, elem_of_union. tauto.
Qed.

(** C2.  When the route class has no attribute named after the
    lower-cased HTTP method of the request, [handle_request] (of a plain
    route class and of a parser-equipped one alike) aborts with status
    405 and leaves the world as it found it: no handler, and no parser,
    has been called. *)
Theorem handle_request_no_handler_405 cls ctx route_kwargs w :
  BaseRouteMixin.hasattr cls (lower (method (request ctx))) = false →
  handle_request cls ctx route_kwargs w = (Raise (MkExn (HTTPStatus 405) []), w)
  ∧ BaseRouteMixin.handle_request cls ctx route_kwargs w
    = (Raise (MkExn (HTTPStatus 405) []), w)
  ∧ response_status (handle_request cls ctx route_kwargs w).1 = 405
  ∧ calls (handle_request cls ctx route_kwargs w).2 = calls w.
Proof.
  rewrite hasattr_false. intros Hno.
  assert (Hplain := dispatch_no_handler cls ctx route_kwargs w Hno).
  assert (handle_request cls ctx route_kwargs w
          = (Raise (MkExn (HTTPStatus 405) []), w)) as Hres.
  { unfold handle_request. destruct (cls_base cls); [done|].
    rewrite parser_not_engaged; [done|]. right. intros Hm.
    apply (hasattr_parsed_method cls) in Hm. rewrite Hno in Hm.
    by destruct Hm. }
  by rewrite Hres.
Qed.

(** C8.  When the lower-cased HTTP method names a handler of the class,
    the dispatcher calls that handler with the four positional arguments
    (application, request, session, keyword bindings), and what the
    handler returns or raises, with the world it leaves, is the result of
    the dispatcher. *)
Theorem handle_request_invokes_handler cls ctx route_kwargs h w :
  BaseRouteMixin.getattr cls (lower (method (request ctx))) = Some (Handler h) →
  BaseRouteMixin.handle_request cls ctx route_kwargs w
  = h (current_app ctx) (request ctx) (session ctx) route_kwargs
      (called (CallHandler (lower (method (request ctx))) (current_app ctx)
                 (request ctx) (session ctx) route_kwargs) w).
Proof. intros H. by rewrite (dispatch_attr _ _ _ _ _ H). Qed.

(** C9.  A class that does not define [get], [post], [put] or [delete]
    answers the corresponding request through the default handler, which
    aborts with 405; and a subclass that defines a handler under the
    lower-cased name of any verb has that handler called for the verb. *)
Theorem default_handlers_405_and_subclass_verbs cls ctx route_kwargs w :
  (∀ name,
     name ∈ ["get"; "post"; "put"; "delete"] →
     cls_dict cls !! name = None →
     lower (method (request ctx)) = name →
     BaseRouteMixin.handle_request cls ctx route_kwargs w
     = (Raise (MkExn (HTTPStatus 405) []),
        called (CallHandler name (current_app ctx) (request ctx) (session ctx)
                  route_kwargs) w)
     ∧ response_status (BaseRouteMixin.handle_request cls ctx route_kwargs w).1
       = 405)
  ∧ (∀ sub_name h,
       BaseRouteMixin.handle_request
         (subclass cls sub_name {[ lower (method (request ctx)) := Handler h ]})
         ctx route_kwargs w
       = h (current_app ctx) (request ctx) (session ctx) route_kwargs
           (called (CallHandler (lower (method (request ctx))) (current_app ctx)
                      (request ctx) (session ctx) route_kwargs) w)).
Proof.
  split.
  - intros name Hname Hown Hm.
    destruct (getattr_inherited_default cls name Hname Hown) as (h & Hget & Hh).
    rewrite <- Hm in Hget.
    rewrite (dispatch_attr _ _ _ _ _ Hget). simpl. rewrite Hh, Hm. done.
  - intros sub_name h.
    apply (dispatch_attr _ _ _ (Handler h)), getattr_own.
    simpl. apply lookup_union_Some_l, lookup_singleton_eq.
Qed.

(** ** The parameter merger *)

(** C7.  When the parser hook of the class produces no parser, or the
    HTTP method of the request is none of GET, POST and PUT, the
    parser-equipped dispatcher is the plain dispatcher applied to the
    same, unmodified keyword bindings. *)
Theorem parser_handle_request_passes_through cls ctx route_kwargs :
  gen_request_parser cls = None ∨
  ¬ (method (request ctx) = "GET" ∨ method (request ctx) = "POST"
     ∨ method (request ctx) = "PUT") →
  BaseRouteWithParserMixin.handle_request cls ctx route_kwargs
  = BaseRouteMixin.handle_request cls ctx route_kwargs.
Proof. apply parser_not_engaged. Qed.

(** C1.  The merged mapping does not always reach a handler.  On a
    class whose parser yields a namespace with the key [cls], a GET
    request with a successful parse ends in the [TypeError] of the call
    of [super().handle_request] with the merged mapping as keywords,
    which cannot bind a keyword named [cls]: the world is the one the
    parser left and no handler has been called. *)
Theorem parsed_cls_argument_is_type_error :
  handle_request Fixtures.ClsArgumentRoute (Fixtures.context "GET")
    Fixtures.barcelona Fixtures.gen_flask_app
  = (Raise (MkExn TypeError
              [PyStr BaseRouteWithParserMixin.multiple_values_message]),
     called CallParseArgs Fixtures.gen_flask_app).
Proof. vm_compute. reflexivity. Qed.

(** X11.  With a parser configured, a GET, POST or PUT request, a
    successful parse and no key named [cls] among the URL-derived
    bindings and the parsed arguments, the handler is called with the
    merged mapping: every parsed pair is in it, a parsed value replaces
    the URL-derived value of the same key, and the other URL-derived
    bindings stay. *)
Theorem merged_arguments_reach_handler cls parser ctx route_kwargs w args rest w' :
  gen_request_parser cls = Some parser →
  method (request ctx) = "GET" ∨ method (request ctx) = "POST"
  ∨ method (request ctx) = "PUT" →
  parse_args parser ctx (called CallParseArgs w) = (Return (args, rest), w') →
  "cls" ∉ dom route_kwargs →
  "cls" ∉ dom (ns_dict args) →
  ∃ merged handler,
    BaseRouteMixin.getattr cls (lower (method (request ctx))) = Some handler
    ∧ BaseRouteWithParserMixin.handle_request cls ctx route_kwargs w
      = call_attr handler (current_app ctx) (request ctx) (session ctx) merged
          (called (CallHandler (lower (method (request ctx))) (current_app ctx)
                     (request ctx) (session ctx) merged) w')
    ∧ (∀ k v, ns_dict args !! k = Some v → merged !! k = Some v)
    ∧ (∀ k v u, ns_dict args !! k = Some v → route_kwargs !! k = Some u →
                merged !! k = Some v)
    ∧ (∀ k, ns_dict args !! k = None → merged !! k = route_kwargs !! k).
Proof.
  intros Hp Hm Hparse Hkw Hargs.
  destruct (hasattr_parsed_method cls _ Hm) as [handler Hget].
  exists (update route_kwargs (ns_dict args)), handler.
  split; [done|]. split.
  - rewrite (parser_success _ _ _ _ _ _ _ _ Hp Hm Hparse).
    rewrite super_handle_request_binds by by apply update_no_cls.
    by apply dispatch_attr.
  - repeat split; eauto using update_lookup_parsed, update_lookup_kept.
Qed.

(** X12.  With a parser configured, a GET, POST or PUT request and a
    successful parse whose namespace holds the key [cls], the dispatcher
    raises a [TypeError] in the world the parser left: the merged
    arguments cannot be bound and no handler is called. *)
Theorem parsed_cls_key_never_dispatches cls parser ctx route_kwargs w args rest w' :
  gen_request_parser cls = Some parser →
  method (request ctx) = "GET" ∨ method (request ctx) = "POST"
  ∨ method (request ctx) = "PUT" →
  parse_args parser ctx (called CallParseArgs w) = (Return (args, rest), w') →
  "cls" ∈ dom (ns_dict args) →
  BaseRouteWithParserMixin.handle_request cls ctx route_kwargs w
  = (Raise (MkExn TypeError
              [PyStr BaseRouteWithParserMixin.multiple_values_message]), w').
Proof.
  intros Hp Hm Hparse Hargs.
  rewrite (parser_success _ _ _ _ _ _ _ _ Hp Hm Hparse).
  apply super_handle_request_collides.
  unfold update. rewrite dom_union_L, elem_of_union. by left.
Qed.

(** C4.  With a parser configured and a GET, POST or PUT request, a
    [TypeError] out of [parse_args] (the wrong content type) makes the
    dispatcher abort with status 415 in the world the parser left: no
    handler is called. *)
Theorem wrong_content_type_415 cls parser ctx route_kwargs w exc w' :
  gen_request_parser cls = Some parser →
  method (request ctx) = "GET" ∨ method (request ctx) = "POST"
  ∨ method (request ctx) = "PUT" →
  parse_args parser ctx (called CallParseArgs w) = (Raise exc, w') →
  isinstance exc TypeError = true →
  BaseRouteWithParserMixin.handle_request cls ctx route_kwargs w
  = (Raise (MkExn (HTTPStatus 415) []), w')
  ∧ response_status (BaseRouteWithParserMixin.handle_request cls ctx route_kwargs w).1
    = 415.
Proof.
  intros Hp Hm Hparse Hty.
  rewrite (parser_engaged _ _ _ _ _ Hp Hm), Hparse.
  unfold BaseRouteWithParserMixin.on_parse_error. by rewrite Hty.
Qed.

(** C5.  With a parser configured and a GET, POST or PUT request, a
    [RuntimeError] out of [parse_args] whose first argument is a string
    starting with the recognised prefix makes the dispatcher abort with
    status 400; a [RuntimeError] with no argument, with a first argument
    that is not a string, or with another message is raised again as it
    is.  In both cases no handler is called. *)
Theorem validation_error_400_or_reraised cls parser ctx route_kwargs w exc w' :
  gen_request_parser cls = Some parser →
  method (request ctx) = "GET" ∨ method (request ctx) = "POST"
  ∨ method (request ctx) = "PUT" →
  parse_args parser ctx (called CallParseArgs w) = (Raise exc, w') →
  isinstance exc RuntimeError = true →
  ((∃ message others,
      exc_args exc = PyStr message :: others
      ∧ startswith message BaseRouteWithParserMixin.validation_prefix = true) →
   BaseRouteWithParserMixin.handle_request cls ctx route_kwargs w
   = (Raise (MkExn (HTTPStatus 400) []), w'))
  ∧ ((∀ message others,
        exc_args exc = PyStr message :: others →
        startswith message BaseRouteWithParserMixin.validation_prefix = false) →
     BaseRouteWithParserMixin.handle_request cls ctx route_kwargs w
     = (Raise exc, w')).
Proof.
  intros Hp Hm Hparse Hrt.
  rewrite (parser_engaged _ _ _ _ _ Hp Hm), Hparse.
  unfold BaseRouteWithParserMixin.on_parse_error.
  unfold isinstance in *. rewrite (RuntimeError_not_TypeError _ Hrt), Hrt.
  split.
  - intros (message & others & -> & ->). done.
  - intros Hother. destruct (exc_args exc) as [|[] others] eqn:Hargs; try done.
    by rewrite (Hother _ _ eq_refl).
Qed.

(** ** Beyond the three outcomes: what else the dispatchers do *)


Lemma on_parse_error_raises exc w :
  ∃ exc', BaseRouteWithParserMixin.on_parse_error exc w = (Raise exc', w)
          ∧ (exc' = MkExn (HTTPStatus 415) []
             ∨ exc' = MkExn (HTTPStatus 400) []
             ∨ exc' = exc).
Proof.
  unfold BaseRouteWithParserMixin.on_parse_error.
  destruct (isinstance exc TypeError); [eauto|].
  destruct (isinstance exc RuntimeError); [|eauto].
  destruct (exc_args exc) as [|[] others]; eauto.
  destruct (startswith _ _); eauto.
Qed.

(** X1.  The 405 guard looks for any attribute, not for a handler: a
    request whose lower-cased method is [handle_request] or
    [register_route], on a class that does not define a handler under
    that name, is not answered 405; the inherited classmethod is called
    with the four arguments and the call fails with a [TypeError]. *)
Theorem non_handler_attribute_is_called cls ctx route_kwargs w name :
  name ∈ ["handle_request"; "register_route"] →
  cls_dict cls !! name = None →
  lower (method (request ctx)) = name →
  ∃ message,
    BaseRouteMixin.handle_request cls ctx route_kwargs w
    = (Raise (MkExn TypeError [PyStr message]),
       called (CallHandler name (current_app ctx) (request ctx) (session ctx)
                 route_kwargs) w).
Proof.
  intros Hname Hown Hm.
  assert (∃ message, BaseRouteMixin.getattr cls name = Some (Other message))
    as [message Hget].
  { unfold BaseRouteMixin.getattr. rewrite lookup_union_r by done.
    repeat (apply elem_of_cons in Hname as [-> | Hname]);
      [..|by apply elem_of_nil in Hname];
      destruct (cls_base cls); eexists; vm_compute; reflexivity. }
  exists message. rewrite <- Hm in Hget.
  rewrite (dispatch_attr _ _ _ _ _ Hget). by rewrite Hm.
Qed.

(** X2.  With a parser configured and a GET, POST or PUT request, an
    exception out of [parse_args] that is neither a [TypeError] nor a
    [RuntimeError] leaves [handle_request] as it is, in the world the
    parser left: it is not mapped to a status and no handler is called. *)
Theorem other_parser_error_propagates cls parser ctx route_kwargs w exc w' :
  gen_request_parser cls = Some parser →
  method (request ctx) = "GET" ∨ method (request ctx) = "POST"
  ∨ method (request ctx) = "PUT" →
  parse_args parser ctx (called CallParseArgs w) = (Raise exc, w') →
  isinstance exc TypeError = false →
  isinstance exc RuntimeError = false →
  BaseRouteWithParserMixin.handle_request cls ctx route_kwargs w = (Raise exc, w').
Proof.
  intros Hp Hm Hparse Hty Hrt.
  rewrite (parser_engaged _ _ _ _ _ Hp Hm), Hparse.
  unfold BaseRouteWithParserMixin.on_parse_error. by rewrite Hty, Hrt.
Qed.

(** X3.  Whatever [parse_args] raises, the parser-equipped dispatcher
    raises too, in the world the parser left: the abort with 415, the
    abort with 400 or the parser's own exception.  A failed parse never
    reaches a handler and never yields a response. *)
Theorem failed_parse_never_dispatches cls parser ctx route_kwargs w exc w' :
  gen_request_parser cls = Some parser →
  method (request ctx) = "GET" ∨ method (request ctx) = "POST"
  ∨ method (request ctx) = "PUT" →
  parse_args parser ctx (called CallParseArgs w) = (Raise exc, w') →
  ∃ exc',
    BaseRouteWithParserMixin.handle_request cls ctx route_kwargs w = (Raise exc', w')
    ∧ (exc' = MkExn (HTTPStatus 415) []
       ∨ exc' = MkExn (HTTPStatus 400) []
       ∨ exc' = exc).
Proof.
  intros Hp Hm Hparse.
  destruct (on_parse_error_raises exc w') as (exc' & Hraise & Hexc').
  exists exc'. split; [|done].
  by rewrite (parser_engaged _ _ _ _ _ Hp Hm), Hparse, Hraise.
Qed.


(** X5.  The parser runs before the method is looked up: on a
    parser-equipped class that defines no handler for the verb of a GET,
    POST or PUT request, a successful parse (no key named [cls] among
    the URL-derived bindings and the parsed arguments) is followed by the
    default handler, called with the merged arguments, and the answer is
    405 in the world the parser left. *)
Theorem parse_then_default_405 cls parser ctx route_kwargs w args rest w' :
  gen_request_parser cls = Some parser →
  method (request ctx) = "GET" ∨ method (request ctx) = "POST"
  ∨ method (request ctx) = "PUT" →
  cls_dict cls !! lower (method (request ctx)) = None →
  parse_args parser ctx (called CallParseArgs w) = (Return (args, rest), w') →
  "cls" ∉ dom route_kwargs →
  "cls" ∉ dom (ns_dict args) →
  BaseRouteWithParserMixin.handle_request cls ctx route_kwargs w
  = (Raise (MkExn (HTTPStatus 405) []),
     called (CallHandler (lower (method (request ctx))) (current_app ctx)
               (request ctx) (session ctx) (update route_kwargs (ns_dict args)))
            w').
Proof.
  intros Hp Hm Hown Hparse Hkw Hargs.
  rewrite (parser_success _ _ _ _ _ _ _ _ Hp Hm Hparse).
  rewrite super_handle_request_binds by by apply update_no_cls.
  destruct (getattr_inherited_default cls (lower (method (request ctx))))
    as (h & Hget & Hh); [|done|].
  { destruct Hm as [-> | [-> | ->]]; simpl; repeat constructor. }
  rewrite (dispatch_attr _ _ _ _ _ Hget). simpl. by rewrite Hh.
Qed.

(** ** The route registrar *)

Section RegistrarProperties.

Variable add_url_rule :
  string → ViewFunc → gmap string PyVal → Flask → Outcome unit * Flask.
Variable py_str : Exn → string.

Local Abbreviation register_route := (BaseRouteMixin.register_route add_url_rule py_str).
Local Abbreviation register_entry := (BaseRouteMixin.register_entry add_url_rule py_str).
Local Abbreviation try_register := (BaseRouteMixin.try_register add_url_rule).
Local Abbreviation warning_message := (BaseRouteMixin.warning_message py_str).
Local Abbreviation bound_handle_request := BaseRouteMixin.bound_handle_request.

(** The exception of the reserved-key guard. *)
Local Abbreviation view_func_error :=
  (MkExn KeyError [PyStr BaseRouteMixin.view_func_message]).

(** The record [logger.warning] leaves for a failed entry. *)
Local Abbreviation warning route exc := (MkLogRecord WARNING (warning_message route exc)).

Lemma try_register_reserved cls route opts w :
  "view_func" ∈ dom opts →
  try_register cls route opts w = (Raise view_func_error, w).
Proof.
  intros H. unfold BaseRouteMixin.try_register.
  by rewrite bool_decide_eq_true_2.
Qed.

Lemma try_register_plain cls route opts w :
  "view_func" ∉ dom opts →
  try_register cls route opts w
  = let '(r, app') :=
      add_url_rule route (bound_handle_request cls) opts (flask_app w) in
    (r, called (CallAddUrlRule route (bound_handle_request cls) opts)
          {| flask_app := app'; log := log w; calls := calls w |}).
Proof.
  intros H. unfold BaseRouteMixin.try_register.
  rewrite bool_decide_eq_false_2 by done.
  unfold BaseRouteMixin.app_add_url_rule, mbind, M_bind, bind.
  rewrite record_call_called. unfold BaseRouteMixin.on_flask_app. simpl.
  by destruct (add_url_rule _ _ _ _) as [[[]|exc] app'].
Qed.

Lemma register_entry_spec cls route opts w :
  register_entry cls (route, opts) w
  = match try_register cls route opts w with
    | (Return _, w') => (Return tt, w')
    | (Raise exc, w') => (Return tt, logged (warning route exc) w')
    end.
Proof.
  unfold BaseRouteMixin.register_entry, try_except.
  by destruct (try_register cls route opts w) as [[[]|exc] w'].
Qed.

Lemma register_entry_returns cls entry w :
  (register_entry cls entry w).1 = Return tt.
Proof.
  destruct entry as [route opts]. rewrite register_entry_spec.
  by destruct (try_register cls route opts w) as [[[]|exc] w'].
Qed.

Lemma register_route_loop cls route_map w :
  ROUTE_MAP cls = Some route_map →
  register_route cls w = for_each route_map (register_entry cls) w.
Proof.
  intros H. unfold BaseRouteMixin.register_route. rewrite H.
  by destruct route_map.
Qed.

Lemma warning_message_names route exc :
  names (warning_message route exc) route
  ∧ names (warning_message route exc) (py_str exc).
Proof.
  unfold BaseRouteMixin.warning_message. split.
  - by exists "Failed to register handler for route ", (" (" ++ py_str exc ++ ")").
  - exists ("Failed to register handler for route " ++ route ++ " ("), ")".
    by rewrite !string_app_assoc.
Qed.

Lemma add_rules_app view_func (xs ys : RouteMap) app :
  add_rules add_url_rule view_func (xs ++ ys)%list app
  = add_rules add_url_rule view_func xs app
      ≫= add_rules add_url_rule view_func ys.
Proof.
  revert app. induction xs as [|[route opts] xs IH]; intros app; simpl; [done|].
  by destruct (add_url_rule route view_func opts app) as [[[]|exc] app'].
Qed.

(** Entries that keep to the reserved-key rule and that the framework
    accepts are registered one by one, and nothing is logged. *)
Lemma for_each_accepted cls entries w app' :
  Forall (λ e, ¬ reserved_key_violation e) entries →
  add_rules add_url_rule (bound_handle_request cls) entries (flask_app w)
    = Some app' →
  for_each entries (register_entry cls) w
  = (Return tt,
     {| flask_app := app'; log := log w;
        calls := (calls w ++
                  ((λ e, CallAddUrlRule e.1 (bound_handle_request cls) e.2)
                     <$> entries))%list |}).
Proof.
  intros Hok. revert w.
  induction Hok as [|[route opts] entries Hentry _ IH]; intros w Hacc.
  - simpl in *. inversion Hacc; subst.
    rewrite (right_id_L [] (++)%list). by destruct w.
  - rewrite for_each_cons, register_entry_spec.
    rewrite try_register_plain by done. simpl in Hacc.
    destruct (add_url_rule route _ opts (flask_app w)) as [[[]|exc] app1];
      [|discriminate].
    rewrite IH by done. simpl. by rewrite <- (assoc_L (++)%list).
Qed.

(** C10.  For a class whose [ROUTE_MAP] is [None] or empty,
    [register_route] returns without raising and leaves the world as
    it was: the application's routing table is unchanged, nothing is
    logged and the framework is not called. *)
Theorem register_route_no_routes cls w :
  ROUTE_MAP cls = None ∨ ROUTE_MAP cls = Some [] →
  register_route cls w = (Return tt, w).
Proof.
  intros [H|H]; unfold BaseRouteMixin.register_route; by rewrite H.
Qed.

(** C6.  For an entry whose options hold the key ["view_func"], the
    guarded registration raises the [KeyError] without calling the
    framework, and the iteration for that entry catches it: it returns
    normally, the application and the calls made are as before, and the
    warning for the route is logged. *)
Theorem reserved_key_fails_entry cls route opts w :
  reserved_key_violation (route, opts) →
  try_register cls route opts w = (Raise view_func_error, w)
  ∧ register_entry cls (route, opts) w
    = (Return tt, logged (warning route view_func_error) w).
Proof.
  unfold reserved_key_violation. intros H. simpl in H.
  rewrite register_entry_spec, try_register_reserved by done. done.
Qed.

(** C3, amended.  [register_route] never raises.  When the registration
    of an entry raises, a warning naming its path and the rendered
    exception is logged and the loop goes on with the entries after it.
    In particular, when exactly one entry of the table breaks the
    reserved-key rule and the framework accepts the others, those [N-1]
    entries are registered with the framework, in order, and the log
    gains exactly one record, the warning for the offending path.
    Without the acceptance of the others the last part fails: every
    entry the framework turns down is logged as well. *)
Theorem register_route_isolates_failures cls :
  (∀ w, (register_route cls w).1 = Return tt)
  ∧ (∀ before route opts after w w1 exc w2,
       ROUTE_MAP cls = Some (before ++ (route, opts) :: after)%list →
       for_each before (register_entry cls) w = (Return tt, w1) →
       try_register cls route opts w1 = (Raise exc, w2) →
       register_route cls w
       = for_each after (register_entry cls) (logged (warning route exc) w2)
       ∧ (for_each after (register_entry cls)
            (logged (warning route exc) w2)).1 = Return tt
       ∧ names (warning_message route exc) route
       ∧ names (warning_message route exc) (py_str exc))
  ∧ (∀ before route opts after w app',
       ROUTE_MAP cls = Some (before ++ (route, opts) :: after)%list →
       reserved_key_violation (route, opts) →
       Forall (λ e, ¬ reserved_key_violation e) (before ++ after)%list →
       add_rules add_url_rule (bound_handle_request cls)
         (before ++ after)%list (flask_app w) = Some app' →
       register_route cls w
       = (Return tt,
          {| flask_app := app';
             log := (log w ++ [warning route view_func_error])%list;
             calls := (calls w ++
                       ((λ e, CallAddUrlRule e.1 (bound_handle_request cls) e.2)
                          <$> (before ++ after)))%list |})).
Proof.
  split; [|split].
  - intros w. unfold BaseRouteMixin.register_route.
    destruct (ROUTE_MAP cls) as [[|entry route_map]|]; [done| |done].
    apply for_each_returns. intros x w'. apply register_entry_returns.
  - intros before route opts after w w1 exc w2 Hmap Hbefore Hraise.
    rewrite (register_route_loop _ _ _ Hmap).
    rewrite (for_each_app _ _ _ _ _ Hbefore).
    rewrite for_each_cons, register_entry_spec, Hraise.
    split; [done|]. split.
    + apply for_each_returns. intros x w'. apply register_entry_returns.
    + apply warning_message_names.
  - intros before route opts after w app' Hmap Hbad Hok Hacc.
    apply Forall_app in Hok as [Hok1 Hok2].
    rewrite add_rules_app in Hacc.
    destruct (add_rules add_url_rule (bound_handle_request cls) before
                (flask_app w)) as [app1|] eqn:Hacc1; [|discriminate].
    simpl in Hacc.
    rewrite (register_route_loop _ _ _ Hmap).
    rewrite (for_each_app _ _ _ _ _ (for_each_accepted _ _ _ _ Hok1 Hacc1)).
    rewrite for_each_cons, register_entry_spec.
    rewrite try_register_reserved by apply Hbad.
    rewrite (for_each_accepted _ _ _ app' Hok2) by done.
    simpl. by rewrite fmap_app, (assoc_L (++)%list).
Qed.

(** *** Beyond single failures: what a whole pass does *)

Local Abbreviation framework_call cls :=
  (λ e : string * gmap string PyVal,
     CallAddUrlRule e.1 (bound_handle_request cls) e.2).

(** The entries of the class's table; none when [ROUTE_MAP] is [None]. *)
Local Abbreviation entries_of cls := (default [] (ROUTE_MAP cls)).

Lemma register_route_entries cls w :
  register_route cls w = for_each (entries_of cls) (register_entry cls) w.
Proof.
  unfold BaseRouteMixin.register_route.
  by destruct (ROUTE_MAP cls) as [[|entry route_map]|].
Qed.

Lemma register_entry_violation cls route opts w :
  reserved_key_violation (route, opts) →
  register_entry cls (route, opts) w
  = (Return tt, logged (warning route view_func_error) w).
Proof.
  intros H. by rewrite register_entry_spec, try_register_reserved by apply H.
Qed.

Lemma register_entry_plain cls route opts w :
  ¬ reserved_key_violation (route, opts) →
  register_entry cls (route, opts) w
  = match add_url_rule route (bound_handle_request cls) opts (flask_app w) with
    | (Return _, app') =>
        (Return tt,
         called (framework_call cls (route, opts))
           {| flask_app := app'; log := log w; calls := calls w |})
    | (Raise exc, app') =>
        (Return tt,
         logged (warning route exc)
           (called (framework_call cls (route, opts))
              {| flask_app := app'; log := log w; calls := calls w |}))
    end.
Proof.
  intros H. rewrite register_entry_spec, try_register_plain by apply H.
  by destruct (add_url_rule _ _ _ _) as [[[]|exc] app'].
Qed.

Lemma register_entry_with_route_map_loop cls route_map entries :
  for_each entries (register_entry (with_route_map cls route_map))
  = for_each entries (register_entry cls).
Proof. reflexivity. Qed.

Lemma for_each_register_pair cls entries w :
  for_each entries (register_entry cls) w
  = (Return tt, (for_each entries (register_entry cls) w).2).
Proof.
  pose proof (for_each_returns entries (register_entry cls)
                (λ x w', register_entry_returns cls x w') w) as H.
  destruct (for_each entries (register_entry cls) w) as [r w']. simpl in *.
  by rewrite H.
Qed.

(** X6.  In one pass [register_route] calls [add_url_rule] once for each
    entry without the key ["view_func"], in the order of the table, with
    the path, the class's own [handle_request] as view function and the
    entry's options as they are; it makes no other call, whatever the
    framework answers. *)
Theorem register_route_framework_calls cls w :
  calls (register_route cls w).2
  = (calls w ++
     (framework_call cls <$>
        filter (λ e, ¬ reserved_key_violation e) (entries_of cls)))%list.
Proof.
  rewrite register_route_entries. generalize (entries_of cls). intros entries.
  revert w. induction entries as [|[route opts] entries IH]; intros w.
  - simpl. by rewrite (right_id_L [] (++)%list).
  - rewrite for_each_cons.
    destruct (decide (reserved_key_violation (route, opts))) as [Hbad|Hok].
    + rewrite register_entry_violation by done.
      rewrite IH, filter_cons_False by tauto. done.
    + rewrite register_entry_plain by done.
      rewrite filter_cons_True by done.
      destruct (add_url_rule _ _ _ _) as [[[]|exc] app'];
        rewrite IH; simpl; by rewrite <- (assoc_L (++)%list).
Qed.

(** X7.  A pass only appends to the log, and only warnings: the records
    that were there stay in front, every new record has level WARNING,
    and there are at least as many new records as entries with the
    reserved key and at most as many as entries. *)
Theorem register_route_log_append_only cls w :
  ∃ new,
    log (register_route cls w).2 = (log w ++ new)%list
    ∧ Forall (λ r, levelname r = WARNING) new
    ∧ (length (filter reserved_key_violation (entries_of cls)) ≤ length new)%nat
    ∧ (length new ≤ length (entries_of cls))%nat.
Proof.
  rewrite register_route_entries. generalize (entries_of cls). intros entries.
  revert w. induction entries as [|[route opts] entries IH]; intros w.
  - exists []. simpl. rewrite (right_id_L [] (++)%list). repeat split; auto.
  - rewrite for_each_cons.
    destruct (decide (reserved_key_violation (route, opts))) as [Hbad|Hok].
    + rewrite register_entry_violation by done.
      destruct (IH (logged (warning route view_func_error) w))
        as (new & Hlog & Hlevel & Hlow & Hhigh).
      exists (warning route view_func_error :: new).
      rewrite Hlog, filter_cons_True by done. simpl.
      rewrite <- (assoc_L (++)%list). repeat split; auto with lia.
    + rewrite register_entry_plain by done.
      rewrite filter_cons_False by done.
      destruct (add_url_rule _ _ _ _) as [[[]|exc] app'].
      * destruct (IH (called (framework_call cls (route, opts))
                        {| flask_app := app'; log := log w; calls := calls w |}))
          as (new & Hlog & Hlevel & Hlow & Hhigh).
        exists new. rewrite Hlog. simpl. repeat split; auto with lia.
      * destruct (IH (logged (warning route exc)
                        (called (framework_call cls (route, opts))
                           {| flask_app := app'; log := log w; calls := calls w |})))
          as (new & Hlog & Hlevel & Hlow & Hhigh).
        exists (warning route exc :: new). rewrite Hlog. simpl.
        rewrite <- (assoc_L (++)%list). repeat split; auto with lia.
Qed.

(** X8.  When the framework accepts, one after the other, the entries
    that keep to the reserved-key rule, a pass over a table with any
    number of violating entries registers exactly the others, in order,
    and logs exactly one warning per violating entry, in order, each for
    the [KeyError] of the guard. *)
Theorem register_route_violations_only cls w app' :
  add_rules add_url_rule (bound_handle_request cls)
    (filter (λ e, ¬ reserved_key_violation e) (entries_of cls)) (flask_app w)
  = Some app' →
  register_route cls w
  = (Return tt,
     {| flask_app := app';
        log := (log w ++
                ((λ e, warning e.1 view_func_error) <$>
                   filter reserved_key_violation (entries_of cls)))%list;
        calls := (calls w ++
                  (framework_call cls <$>
                     filter (λ e, ¬ reserved_key_violation e) (entries_of cls)))%list
     |}).
Proof.
  rewrite register_route_entries. generalize (entries_of cls). intros entries.
  revert w. induction entries as [|[route opts] entries IH]; intros w Hacc.
  - simpl in *. inversion Hacc; subst.
    rewrite !(right_id_L [] (++)%list). by destruct w.
  - rewrite for_each_cons.
    destruct (decide (reserved_key_violation (route, opts))) as [Hbad|Hok].
    + rewrite register_entry_violation by done.
      rewrite filter_cons_False in Hacc by tauto.
      rewrite (filter_cons_False (λ e, ¬ reserved_key_violation e)) by tauto.
      rewrite filter_cons_True by done.
      rewrite IH by done. simpl. by rewrite <- (assoc_L (++)%list).
    + rewrite register_entry_plain by done.
      rewrite filter_cons_True in Hacc by done.
      rewrite (filter_cons_True (λ e, ¬ reserved_key_violation e)) by done.
      rewrite filter_cons_False by done. simpl in Hacc.
      destruct (add_url_rule _ _ _ _) as [[[]|exc] app1]; [|discriminate].
      rewrite IH by done. simpl. by rewrite <- (assoc_L (++)%list).
Qed.

(** X9.  Registration is incremental: a pass over a table is a pass over
    its first part followed by a pass over the rest, started in the world
    the first pass left. *)
Theorem register_route_app cls (first rest : RouteMap) w :
  register_route (with_route_map cls (Some (first ++ rest)%list)) w
  = register_route (with_route_map cls (Some rest))
      (register_route (with_route_map cls (Some first)) w).2.
Proof.
  rewrite !register_route_entries. simpl.
  rewrite (for_each_app first rest _ w
             (for_each first (register_entry (with_route_map cls (Some first))) w).2).
  - reflexivity.
  - apply (for_each_register_pair (with_route_map cls (Some first))).
Qed.

Lemma register_entry_pair cls entry w :
  register_entry cls entry w = (Return tt, (register_entry cls entry w).2).
Proof.
  pose proof (register_entry_returns cls entry w) as H.
  destruct (register_entry cls entry w) as [r w']. simpl in *. by rewrite H.
Qed.

(** An iteration keeps two worlds that differ by one inserted log record
    in that relation. *)
Lemma register_entry_log_inserted cls entry r w1 w2 :
  log_inserted r w1 w2 →
  log_inserted r (register_entry cls entry w1).2 (register_entry cls entry w2).2.
Proof.
  destruct entry as [route opts].
  intros (Happ & Hcalls & pre & post & Hlog1 & Hlog2).
  destruct (decide (reserved_key_violation (route, opts))) as [Hbad|Hok].
  - rewrite !register_entry_violation by done. simpl.
    split; [done|]. split; [done|].
    exists pre, (post ++ [warning route view_func_error])%list.
    simpl. rewrite Hlog1, Hlog2. by rewrite <- !(assoc_L (++)%list).
  - rewrite !register_entry_plain by done. rewrite <- Happ.
    destruct (add_url_rule _ _ _ _) as [[[]|exc] app']; simpl;
      (split; [done|]); (split; [by rewrite Hcalls|]).
    + by exists pre, post.
    + exists pre, (post ++ [warning route exc])%list.
      simpl. rewrite Hlog1, Hlog2. by rewrite <- !(assoc_L (++)%list).
Qed.

Lemma for_each_log_inserted cls entries r w1 w2 :
  log_inserted r w1 w2 →
  log_inserted r (for_each entries (register_entry cls) w1).2
                 (for_each entries (register_entry cls) w2).2.
Proof.
  revert w1 w2. induction entries as [|entry entries IH]; intros w1 w2 H; [done|].
  rewrite !for_each_cons.
  rewrite (register_entry_pair cls entry w1), (register_entry_pair cls entry w2).
  by apply IH, register_entry_log_inserted.
Qed.

(** X10.  An entry with the reserved key touches nothing but the log: the
    pass over a table that holds it leaves the application and the calls
    made to the framework exactly as the pass over the table without it,
    and its log is the log of that pass with the one warning for the
    entry inserted, whatever the framework does with the other entries. *)
Theorem reserved_entry_only_adds_warning cls (before after : RouteMap) route opts w :
  reserved_key_violation (route, opts) →
  log_inserted (warning route view_func_error)
    (register_route (with_route_map cls (Some (before ++ after)%list)) w).2
    (register_route
       (with_route_map cls (Some (before ++ (route, opts) :: after)%list)) w).2.
Proof.
  intros Hbad. rewrite !register_route_entries. simpl.
  rewrite !register_entry_with_route_map_loop.
  rewrite (for_each_app before after _ w _ (for_each_register_pair cls before w)).
  rewrite (for_each_app before ((route, opts) :: after) _ w _
             (for_each_register_pair cls before w)).
  rewrite for_each_cons, register_entry_violation by done.
  apply for_each_log_inserted.
  split; [done|]. split; [done|].
  exists (log (for_each before (register_entry cls) w).2), [].
  by rewrite (right_id_L [] (++)%list).
Qed.

End RegistrarProperties.

(** ** The properties at the classes of the self-test *)

Import Fixtures.

Local Abbreviation abort code := (Raise (MkExn (HTTPStatus code) [])).

(** [PATCH /] on [IndexRoute], which defines no [patch]. *)
Lemma handle_request_no_handler_405_witness :
  BaseRouteMixin.hasattr IndexRoute (lower (method (request (context "PATCH")))) = false
  ∧ handle_request IndexRoute (context "PATCH") ∅ gen_flask_app
    = (abort 405, gen_flask_app).
Proof.
  split; [vm_compute; reflexivity|].
  apply (handle_request_no_handler_405 IndexRoute (context "PATCH") ∅ gen_flask_app).
  vm_compute; reflexivity.
Defined.

(** [GET /] on [IndexRoute] is answered by its [get]. *)
Lemma handle_request_invokes_handler_witness :
  (BaseRouteMixin.handle_request IndexRoute (context "GET") ∅ gen_flask_app).1
  = Return (PyTuple [PyStr "<h1>Splash Page</h1>"; PyInt 200]).
Proof.
  rewrite (handle_request_invokes_handler IndexRoute (context "GET") ∅
             (responding (PyStr "<h1>Splash Page</h1>") 200) gen_flask_app);
    vm_compute; reflexivity.
Defined.

(** [DELETE] on a class that defines no handler of its own. *)
Lemma default_handlers_405_and_subclass_verbs_witness :
  cls_dict BaseRoute !! "delete" = None
  ∧ response_status
      (BaseRouteMixin.handle_request BaseRoute (context "DELETE") ∅ gen_flask_app).1
    = 405.
Proof.
  split; [vm_compute; reflexivity|].
  apply (proj1 (default_handlers_405_and_subclass_verbs BaseRoute
                  (context "DELETE") ∅ gen_flask_app) "delete").
  - repeat constructor.
  - vm_compute; reflexivity.
  - vm_compute; reflexivity.
Defined.

(** A parser-equipped class whose hook returns [None]. *)
Lemma parser_handle_request_passes_through_witness :
  gen_request_parser NoParserWithVRRoute = None
  ∧ BaseRouteWithParserMixin.handle_request NoParserWithVRRoute (context "GET") barcelona
    = BaseRouteMixin.handle_request NoParserWithVRRoute (context "GET") barcelona.
Proof.
  split; [reflexivity|].
  apply (parser_handle_request_passes_through NoParserWithVRRoute (context "GET")).
  left. reflexivity.
Defined.

(** [GET /team/FC%20Barcelona?team_name=FC%20Milan] *)
Lemma merged_arguments_reach_handler_witness :
  ∃ merged handler,
    BaseRouteMixin.getattr WithParserWithVRRoute "get" = Some handler
    ∧ BaseRouteWithParserMixin.handle_request WithParserWithVRRoute
        (context "GET") barcelona gen_flask_app
      = call_attr handler (current_app (context "GET")) (request (context "GET"))
          (session (context "GET")) merged
          (called (CallHandler "get" (current_app (context "GET"))
                     (request (context "GET")) (session (context "GET")) merged)
                  (called CallParseArgs gen_flask_app))
    ∧ (∀ k v, ns_dict milan !! k = Some v → merged !! k = Some v)
    ∧ (∀ k v u, ns_dict milan !! k = Some v → barcelona !! k = Some u →
                merged !! k = Some v)
    ∧ (∀ k, ns_dict milan !! k = None → merged !! k = barcelona !! k).
Proof.
  apply (merged_arguments_reach_handler WithParserWithVRRoute
           (parser_returning (ns_dict milan)) (context "GET") barcelona
           gen_flask_app milan (PyList []) (called CallParseArgs gen_flask_app)).
  - reflexivity.
  - left. reflexivity.
  - reflexivity.
  - apply (bool_decide_unpack _). vm_compute. exact I.
  - apply (bool_decide_unpack _). vm_compute. exact I.
Defined.

(** A parser that declares an argument named [cls]. *)
Lemma parsed_cls_key_never_dispatches_witness :
  "cls" ∈ dom (ns_dict cls_namespace)
  ∧ BaseRouteWithParserMixin.handle_request ClsArgumentRoute (context "POST")
      barcelona gen_flask_app
    = (Raise (MkExn TypeError
                [PyStr BaseRouteWithParserMixin.multiple_values_message]),
       called CallParseArgs gen_flask_app).
Proof.
  assert ("cls" ∈ dom (ns_dict cls_namespace)) as Hcls.
  { apply (bool_decide_unpack _). vm_compute. exact I. }
  split; [exact Hcls|].
  apply (parsed_cls_key_never_dispatches ClsArgumentRoute
           (parser_returning (ns_dict cls_namespace)) (context "POST") barcelona
           gen_flask_app cls_namespace (PyList [])
           (called CallParseArgs gen_flask_app)).
  - reflexivity.
  - right. left. reflexivity.
  - reflexivity.
  - exact Hcls.
Defined.

(** A POST whose body has the wrong content type. *)
Lemma wrong_content_type_415_witness :
  isinstance invalid_mimetype TypeError = true
  ∧ BaseRouteWithParserMixin.handle_request (failing_route invalid_mimetype)
      (context "POST") ∅ gen_flask_app
    = (abort 415, called CallParseArgs gen_flask_app).
Proof.
  split; [vm_compute; reflexivity|].
  apply (wrong_content_type_415 (failing_route invalid_mimetype)
           (parser_raising invalid_mimetype) (context "POST") ∅ gen_flask_app
           invalid_mimetype (called CallParseArgs gen_flask_app)).
  - reflexivity.
  - right. left. reflexivity.
  - reflexivity.
  - vm_compute; reflexivity.
Defined.

(** A POST with an invalid argument, and a parse outside of a request
    context. *)
Lemma validation_error_400_or_reraised_witness :
  BaseRouteWithParserMixin.handle_request (failing_route invalid_argument)
    (context "POST") ∅ gen_flask_app
  = (abort 400, called CallParseArgs gen_flask_app)
  ∧ BaseRouteWithParserMixin.handle_request (failing_route outside_context)
      (context "POST") ∅ gen_flask_app
    = (Raise outside_context, called CallParseArgs gen_flask_app).
Proof.
  split.
  - apply (validation_error_400_or_reraised (failing_route invalid_argument)
             (parser_raising invalid_argument) (context "POST") ∅ gen_flask_app
             invalid_argument (called CallParseArgs gen_flask_app)).
    + reflexivity.
    + right. left. reflexivity.
    + reflexivity.
    + vm_compute; reflexivity.
    + eexists _, _. split; [reflexivity | vm_compute; reflexivity].
  - apply (validation_error_400_or_reraised (failing_route outside_context)
             (parser_raising outside_context) (context "POST") ∅ gen_flask_app
             outside_context (called CallParseArgs gen_flask_app)).
    + reflexivity.
    + right. left. reflexivity.
    + reflexivity.
    + vm_compute; reflexivity.
    + intros message others Hargs. injection Hargs as <- <-.
      vm_compute; reflexivity.
Defined.

(** A class without a route table. *)
Lemma register_route_no_routes_witness :
  ROUTE_MAP BaseRoute = None
  ∧ BaseRouteMixin.register_route sample_add_url_rule sample_str BaseRoute gen_flask_app
    = (Return tt, gen_flask_app).
Proof.
  split; [reflexivity|].
  apply (register_route_no_routes sample_add_url_rule sample_str BaseRoute gen_flask_app).
  left. reflexivity.
Defined.

(** The entry of [InvalidRoute]. *)
Lemma reserved_key_fails_entry_witness :
  reserved_key_violation ("/invalid", invalid_options)
  ∧ BaseRouteMixin.try_register sample_add_url_rule InvalidRoute "/invalid"
      invalid_options gen_flask_app
    = (Raise (MkExn KeyError [PyStr BaseRouteMixin.view_func_message]), gen_flask_app)
  ∧ BaseRouteMixin.register_entry sample_add_url_rule sample_str InvalidRoute
      ("/invalid", invalid_options) gen_flask_app
    = (Return tt,
       logged (MkLogRecord WARNING
                 (BaseRouteMixin.warning_message sample_str "/invalid"
                    (MkExn KeyError [PyStr BaseRouteMixin.view_func_message])))
              gen_flask_app).
Proof.
  assert (reserved_key_violation ("/invalid", invalid_options)) as Hbad.
  { apply (bool_decide_unpack _). vm_compute. exact I. }
  split; [exact Hbad|].
  exact (reserved_key_fails_entry sample_add_url_rule sample_str InvalidRoute
           "/invalid" invalid_options gen_flask_app Hbad).
Defined.

(** A table of three entries, the second of which names a view function:
    the first and the third are registered and one warning is logged. *)
Lemma register_route_isolates_failures_witness :
  BaseRouteMixin.register_route sample_add_url_rule sample_str MixedRoute gen_flask_app
  = (Return tt,
     {| flask_app :=
          MkFlask [MkRule "/" (ClassMethod "MixedRoute" "handle_request")
                     {[ "endpoint" := PyStr "root" ]};
                   MkRule "/index" (ClassMethod "MixedRoute" "handle_request")
                     {[ "endpoint" := PyStr "index" ]}];
        log := [MkLogRecord WARNING
                  (BaseRouteMixin.warning_message sample_str "/invalid"
                     (MkExn KeyError [PyStr BaseRouteMixin.view_func_message]))];
        calls := [CallAddUrlRule "/" (ClassMethod "MixedRoute" "handle_request")
                    {[ "endpoint" := PyStr "root" ]};
                  CallAddUrlRule "/index" (ClassMethod "MixedRoute" "handle_request")
                    {[ "endpoint" := PyStr "index" ]}] |}).
Proof.
  assert (reserved_key_violation ("/invalid", invalid_options)) as Hbad.
  { apply (bool_decide_unpack _). vm_compute. exact I. }
  assert (Forall (λ e, ¬ reserved_key_violation e)
            ([("/", {[ "endpoint" := PyStr "root" ]})] ++
             [("/index", {[ "endpoint" := PyStr "index" ]})])%list) as Hok.
  { repeat constructor; apply (bool_decide_unpack _); vm_compute; exact I. }
  exact (proj2 (proj2 (register_route_isolates_failures sample_add_url_rule
                         sample_str MixedRoute))
           [("/", {[ "endpoint" := PyStr "root" ]})]
           "/invalid" invalid_options
           [("/index", {[ "endpoint" := PyStr "index" ]})]
           gen_flask_app _ eq_refl Hbad Hok eq_refl).
Defined.

(** ** The further properties at the classes of the self-test *)

(** A request with the method [HANDLE_REQUEST]. *)
Lemma non_handler_attribute_is_called_witness :
  cls_dict BaseRoute !! "handle_request" = None
  ∧ ∃ message,
      BaseRouteMixin.handle_request BaseRoute (context "HANDLE_REQUEST") ∅ gen_flask_app
      = (Raise (MkExn TypeError [PyStr message]),
         called (CallHandler "handle_request"
                   (current_app (context "HANDLE_REQUEST"))
                   (request (context "HANDLE_REQUEST"))
                   (session (context "HANDLE_REQUEST")) ∅) gen_flask_app).
Proof.
  split; [vm_compute; reflexivity|].
  apply (non_handler_attribute_is_called BaseRoute (context "HANDLE_REQUEST") ∅
           gen_flask_app "handle_request").
  - repeat constructor.
  - vm_compute; reflexivity.
  - vm_compute; reflexivity.
Defined.

(** A parser that fails with a [ValueError]. *)
Lemma other_parser_error_propagates_witness :
  BaseRouteWithParserMixin.handle_request
    (failing_route (MkExn ValueError [PyStr "malformed request"]))
    (context "PUT") ∅ gen_flask_app
  = (Raise (MkExn ValueError [PyStr "malformed request"]),
     called CallParseArgs gen_flask_app).
Proof.
  apply (other_parser_error_propagates
           (failing_route (MkExn ValueError [PyStr "malformed request"]))
           (parser_raising (MkExn ValueError [PyStr "malformed request"]))
           (context "PUT") ∅ gen_flask_app).
  - reflexivity.
  - right. right. reflexivity.
  - reflexivity.
  - vm_compute; reflexivity.
  - vm_compute; reflexivity.
Defined.

(** A parse outside of a request context. *)
Lemma failed_parse_never_dispatches_witness :
  ∃ exc',
    BaseRouteWithParserMixin.handle_request (failing_route outside_context)
      (context "GET") barcelona gen_flask_app
    = (Raise exc', called CallParseArgs gen_flask_app)
    ∧ (exc' = MkExn (HTTPStatus 415) []
       ∨ exc' = MkExn (HTTPStatus 400) []
       ∨ exc' = outside_context).
Proof.
  apply (failed_parse_never_dispatches (failing_route outside_context)
           (parser_raising outside_context) (context "GET") barcelona
           gen_flask_app outside_context (called CallParseArgs gen_flask_app)).
  - reflexivity.
  - left. reflexivity.
  - reflexivity.
Defined.


(** [PUT] on [WithParserWithVRRoute], which defines [get] only. *)
Lemma parse_then_default_405_witness :
  cls_dict WithParserWithVRRoute !! "put" = None
  ∧ BaseRouteWithParserMixin.handle_request WithParserWithVRRoute (context "PUT")
      barcelona gen_flask_app
    = (Raise (MkExn (HTTPStatus 405) []),
       called (CallHandler "put" (current_app (context "PUT"))
                 (request (context "PUT")) (session (context "PUT"))
                 (update barcelona (ns_dict milan)))
              (called CallParseArgs gen_flask_app)).
Proof.
  split; [vm_compute; reflexivity|].
  apply (parse_then_default_405 WithParserWithVRRoute
           (parser_returning (ns_dict milan)) (context "PUT") barcelona
           gen_flask_app milan (PyList []) (called CallParseArgs gen_flask_app)).
  - reflexivity.
  - right. right. reflexivity.
  - vm_compute; reflexivity.
  - reflexivity.
  - apply (bool_decide_unpack _). vm_compute. exact I.
  - apply (bool_decide_unpack _). vm_compute. exact I.
Defined.

(** [MixedRoute]: two entries accepted, one warning. *)
Lemma register_route_violations_only_witness :
  (BaseRouteMixin.register_route sample_add_url_rule sample_str MixedRoute
     gen_flask_app).1 = Return tt
  ∧ rule <$> url_map (flask_app
      (BaseRouteMixin.register_route sample_add_url_rule sample_str MixedRoute
         gen_flask_app).2) = ["/"; "/index"]
  ∧ length (log
      (BaseRouteMixin.register_route sample_add_url_rule sample_str MixedRoute
         gen_flask_app).2) = 1%nat.
Proof.
  rewrite (register_route_violations_only sample_add_url_rule sample_str MixedRoute
             gen_flask_app
             (MkFlask [MkRule "/" (ClassMethod "MixedRoute" "handle_request")
                         {[ "endpoint" := PyStr "root" ]};
                       MkRule "/index" (ClassMethod "MixedRoute" "handle_request")
                         {[ "endpoint" := PyStr "index" ]}])).
  - repeat split; vm_compute; reflexivity.
  - vm_compute; reflexivity.
Defined.

(** The warning for ["/invalid"] next to a path the framework rejects. *)
Lemma reserved_entry_only_adds_warning_witness :
  log_inserted
    (MkLogRecord WARNING
       (BaseRouteMixin.warning_message sample_str "/invalid"
          (MkExn KeyError [PyStr BaseRouteMixin.view_func_message])))
    (BaseRouteMixin.register_route sample_add_url_rule sample_str
       (with_route_map BaseRoute (Some ([("/", ∅)] ++ [("index", ∅)])%list))
       gen_flask_app).2
    (BaseRouteMixin.register_route sample_add_url_rule sample_str
       (with_route_map BaseRoute
          (Some ([("/", ∅)] ++ ("/invalid", invalid_options) :: [("index", ∅)])%list))
       gen_flask_app).2.
Proof.
  apply (reserved_entry_only_adds_warning sample_add_url_rule sample_str BaseRoute
           [("/", ∅)] [("index", ∅)] "/invalid" invalid_options gen_flask_app).
  apply (bool_decide_unpack _). vm_compute. exact I.
Defined.

(** The table of [RejectedRoute] has two entries, of which exactly one
    breaks the reserved-key rule; the framework turns the other down for
    its missing leading slash.  The pass registers nothing and logs two
    warnings, not [N-1 = 1] registration and one warning. *)
Lemma register_route_second_failure_counterexample :
  ROUTE_MAP RejectedRoute = Some [("/invalid", invalid_options); ("index", ∅)]
  ∧ filter reserved_key_violation [("/invalid", invalid_options); ("index", ∅)]
    = [("/invalid", invalid_options)]
  ∧ url_map (flask_app
      (BaseRouteMixin.register_route sample_add_url_rule sample_str RejectedRoute
         gen_flask_app).2) = []
  ∧ log (BaseRouteMixin.register_route sample_add_url_rule sample_str RejectedRoute
           gen_flask_app).2
    = [MkLogRecord WARNING
         (BaseRouteMixin.warning_message sample_str "/invalid"
            (MkExn KeyError [PyStr BaseRouteMixin.view_func_message]));
       MkLogRecord WARNING
         (BaseRouteMixin.warning_message sample_str "index"
            (MkExn ValueError [PyStr "urls must start with a leading slash"]))].
Proof. repeat split; vm_compute; reflexivity. Qed.
